(** * The "New File" action of tk-multi-workfiles2

    A shallow embedding of
    [python/tk_multi_workfiles/actions/new_file_action.py]:
    the static check [NewFileAction.can_do_new_file] and the method
    [NewFileAction.execute], which sequences calls into the host
    framework (folder creation, template validation, scene hooks,
    context change, metrics) and reports failures in a message box.

    Python control flow is modelled by a small monad whose computations
    thread the state of the host application, emit a chronological list
    of observable events and complete normally, by [return], or by
    [raise].

    The method is embedded twice.  In [execute] the six calls into the
    host may raise, while logging, [str(e)] and the message box return
    normally: this is the embedding for what is called, in which
    order, with which arguments and what the dialog shows.  In
    [Strict.execute] every operation may raise or not return at all:
    this is the embedding for what [execute] contains and how it
    ends.  [strict_run_with_reliable_helpers] relates the two. *)

From Stdlib Require Import String Ascii List Bool ZArith Lia Sorted.
Import ListNotations.
Open Scope string_scope.

(** ** Python values and truthiness *)

#[warnings="-register-all"]
Inductive pyval : Type :=
| PyNone
| PyBool (b : bool)
| PyInt (z : Z)
| PyStr (s : string)
| PyDict (items : list (string * pyval)).

(** [bool(v)] *)
Definition truthy (v : pyval) : bool :=
  match v with
  | PyNone => false
  | PyBool b => b
  | PyInt z => negb (Z.eqb z 0)
  | PyStr s => negb (String.eqb s "")
  | PyDict items => match items with [] => false | _ :: _ => true end
  end.

(** [a or b] and [a and b] return one of their operands. *)
Definition py_or (a b : pyval) : pyval := if truthy a then a else b.
Definition py_and (a b : pyval) : pyval := if truthy a then b else a.

(** ** Exceptions

    Three families of exception classes matter to the handlers of
    [execute]: [sgtk.TankError] and its subclasses, the other subclasses
    of [Exception], and the classes that derive from [BaseException]
    only ([KeyboardInterrupt], [SystemExit], [GeneratorExit]). *)

Inductive exn_class : Type :=
| ClsTankError
| ClsException
| ClsBaseException.

(** An exception object; [exn_str e] is [str(e)]. *)
Record exn : Type := mkExn { exn_cls : exn_class; exn_str : string }.

(** [isinstance(e, TankError)]: what [except TankError] catches. *)
Definition isinstance_TankError (e : exn) : bool :=
  match exn_cls e with ClsTankError => true | _ => false end.

(** [isinstance(e, Exception)]: what [except Exception] catches. *)
Definition isinstance_Exception (e : exn) : bool :=
  match exn_cls e with ClsBaseException => false | _ => true end.

(** A bare [except:] catches every exception. *)
Definition isinstance_BaseException (_ : exn) : bool := true.

(** [TankError(msg)] *)
Definition TankError (msg : string) : exn := mkExn ClsTankError msg.

(** ** Strings: [str.split], [str.join], [str.format] *)

Definition NL : ascii := ascii_of_nat 10.
Definition nl : string := String NL EmptyString.

(** [s.split(sep)] for a one-character separator.  Python's result is
    never empty; it is given as its first element [r[0]] and the rest
    [r[1:]]. *)
Fixpoint split (sep : ascii) (s : string) : string * list string :=
  match s with
  | EmptyString => (EmptyString, [])
  | String c s' =>
      let (l, ls) := split sep s' in
      if Ascii.eqb c sep then (EmptyString, l :: ls) else (String c l, ls)
  end.

(** [sep.join(ls)] *)
Definition join (sep : string) (ls : list string) : string :=
  String.concat sep ls.

(** [c in s] for a character. *)
Fixpoint has_char (c : ascii) (s : string) : bool :=
  match s with
  | EmptyString => false
  | String d s' => Ascii.eqb d c || has_char c s'
  end.


(** ** The data the action works on *)

(** A toolkit context; only [entity] and [project] are inspected by the
    action, the other fields take part in context comparison. *)
Record Context : Type := mkContext {
  project : pyval;
  entity : pyval;
  step : pyval;
  task : pyval;
  user : pyval
}.

Definition Template : Type := string.

(** The [WorkArea] ("environment") of the action; a field holding
    [None] is [None] here. *)
Record WorkArea : Type := mkWorkArea {
  context : option Context;
  work_template : option Template;
  work_area_template : option Template
}.

(** A Qt widget, by handle. *)
Definition QWidget : Type := nat.

Inductive Icon : Type := NoIcon | Information | Warning | Critical | Question.
Inductive StandardButton : Type := Ok | Cancel.

(** The state of a [QMessageBox]: the five arguments of the constructor
    and the two properties [execute] sets afterwards. *)
Record QMessageBox : Type := mkQMessageBox {
  box_icon : Icon;
  box_title : string;
  box_text : string;
  box_buttons : StandardButton;
  box_parent : QWidget;
  box_detailedText : option string;
  box_defaultButton : option StandardButton
}.

Definition new_QMessageBox (i : Icon) (title text : string)
    (buttons : StandardButton) (parent : QWidget) : QMessageBox :=
  mkQMessageBox i title text buttons parent None None.

Definition setDetailedText (b : QMessageBox) (s : string) : QMessageBox :=
  mkQMessageBox (box_icon b) (box_title b) (box_text b) (box_buttons b)
                (box_parent b) (Some s) (box_defaultButton b).

Definition setDefaultButton (b : QMessageBox) (d : StandardButton) : QMessageBox :=
  mkQMessageBox (box_icon b) (box_title b) (box_text b) (box_buttons b)
                (box_parent b) (box_detailedText b) (Some d).

(** The action object: [self.label] and [self._environment]. *)
Record NewFileAction : Type := mkNewFileAction {
  label : string;
  _environment : WorkArea
}.

(** ** Calls into the host framework and the events of a run *)

(** The six orchestration steps of [execute], each a call that leaves
    this module. *)
Inductive call : Type :=
| CreateFoldersIfNeeded (ctx : option Context) (tmpl : option Template)
| AsTemplateFields (ctx : option Context) (tmpl : option Template) (validate : bool)
| ResetCurrentScene (action : string) (ctx : option Context)
| PrepareNewScene (action : string) (ctx : option Context)
| ChangeContext (ctx : option Context)
| LogMetric (name : string).

Inductive orch_step : Type :=
| FolderCreation
| TemplateValidation
| SceneReset
| ScenePreparation
| ContextSwitch
| MetricsLogging.

Definition step_of (c : call) : orch_step :=
  match c with
  | CreateFoldersIfNeeded _ _ => FolderCreation
  | AsTemplateFields _ _ _ => TemplateValidation
  | ResetCurrentScene _ _ => SceneReset
  | PrepareNewScene _ _ => ScenePreparation
  | ChangeContext _ => ContextSwitch
  | LogMetric _ => MetricsLogging
  end.

(** Position of a step in the order of the source text. *)
Definition step_rank (s : orch_step) : nat :=
  match s with
  | FolderCreation => 0
  | TemplateValidation => 1
  | SceneReset => 2
  | ScenePreparation => 3
  | ContextSwitch => 4
  | MetricsLogging => 5
  end.

(** How a call, or a whole function, ends as seen by its caller. *)
Inductive outcome : Type :=
| Returns (v : pyval)
| Raises (e : exn).

(** What a run does that can be observed from outside: calls into the
    host with their outcome, the two logging methods of the app (with
    the exception being handled, which [log_exception] reports), and
    the message box that is shown with [exec_]. *)
Inductive event : Type :=
| EvCall (c : call) (r : outcome)
| EvLogException (msg : string) (handling : exn)
| EvLogDebug (msg : string)
| EvMessageBox (box : QMessageBox).

Definition trace : Type := list event.

(** Projections of a trace used to state the properties. *)
Definition event_step (ev : event) : option orch_step :=
  match ev with
  | EvCall c _ => Some (step_of c)
  | _ => None
  end.

Fixpoint steps_of (t : trace) : list orch_step :=
  match t with
  | [] => []
  | ev :: t' =>
      match event_step ev with
      | Some s => s :: steps_of t'
      | None => steps_of t'
      end
  end.

Definition is_step (s : orch_step) (ev : event) : bool :=
  match event_step ev with
  | Some s' => Nat.eqb (step_rank s) (step_rank s')
  | None => false
  end.

Definition is_dialog (ev : event) : bool :=
  match ev with EvMessageBox _ => true | _ => false end.

(** A step before the metrics call succeeded: it returned, and the
    scene reset returned a truthy value. *)
Definition step_succeeded (ev : event) : bool :=
  match ev with
  | EvCall (LogMetric _) _ => true
  | EvCall (ResetCurrentScene _ _) (Returns v) => truthy v
  | EvCall _ (Returns _) => true
  | EvCall _ (Raises _) => false
  | _ => true
  end.

(** No step before the metrics call raised an exception that is not an
    instance of [Exception]. *)
Definition step_exception_ok (ev : event) : bool :=
  match ev with
  | EvCall (LogMetric _) _ => true
  | EvCall _ (Raises e) => isinstance_Exception e
  | _ => true
  end.

(** A line of a message holds no newline. *)
Definition no_newline (s : string) : Prop := has_char NL s = false.



Definition rank_lt (a b : orch_step) : Prop := step_rank a < step_rank b.

(** Further projections of a trace. *)
Definition is_host_call (ev : event) : bool :=
  match ev with EvCall _ _ => true | _ => false end.

Definition is_raising_call (ev : event) : bool :=
  match ev with EvCall _ (Raises _) => true | _ => false end.

(** Events of a trace that come after the first one satisfying [p]. *)
Fixpoint events_after (p : event -> bool) (t : trace) : trace :=
  match t with
  | [] => []
  | ev :: t' => if p ev then t' else events_after p t'
  end.

(** The arguments each call is written with in [execute], for the work
    area [env] and the scene operation [action]. *)
Definition call_as_written (env : WorkArea) (action : string) (c : call) : Prop :=
  match c with
  | CreateFoldersIfNeeded x t => x = context env /\ t = work_template env
  | AsTemplateFields x t v =>
      x = context env /\ t = work_template env /\ v = true
  | ResetCurrentScene a x => a = action /\ x = context env
  | PrepareNewScene a x => a = action /\ x = context env
  | ChangeContext x => x = context env
  | LogMetric n => n = "New Workfile"
  end.

(** ** [NewFileAction.can_do_new_file] *)

Definition can_do_new_file (env : WorkArea) : pyval :=
  match context env with
  | None =>
      (* [env.context is not None] is [False], which [and] returns *)
      PyBool false
  | Some ctx =>
      py_and (py_or (entity ctx) (project ctx))
             (PyBool (match work_area_template env with
                      | None => false
                      | Some _ => true
                      end))
  end.

(** ** The statements of [execute] *)

Section Execute.

(** The state of everything outside this module (the toolkit, the
    file system, the scene of the editor), and how each call acts on
    it.  The logging methods of the app and the message box are taken
    to return normally. *)
Variable W : Type.
Variable host : call -> W -> outcome * W.

(** [self._app.context] *)
Variable app_context : W -> option Context.

(** [a == b] on contexts ([Context.__eq__]) *)
Variable context_eq : option Context -> option Context -> bool.

(** [sgtk.support_url] and [scene_operation.NEW_FILE_ACTION] *)
Variable support_url : string.
Variable NEW_FILE_ACTION : string.

(** How a block of statements completes. *)
Inductive completion (A : Type) : Type :=
| Normal (a : A)
| Returning (v : pyval)
| Raising (e : exn).
Arguments Normal {A} a.
Arguments Returning {A} v.
Arguments Raising {A} e.

Definition M (A : Type) : Type := W -> completion A * W * trace.

Definition ret {A} (a : A) : M A := fun w => (Normal a, w, []).
Definition return_ {A} (v : pyval) : M A := fun w => (Returning v, w, []).
Definition raise {A} (e : exn) : M A := fun w => (Raising e, w, []).

(** Prefix the events of what ran before. *)
Definition after {A} (t : trace) (r : completion A * W * trace)
  : completion A * W * trace :=
  match r with (c, w, t') => (c, w, (t ++ t')%list) end.

Definition bind {A B} (m : M A) (k : A -> M B) : M B :=
  fun w =>
    match m w with
    | (Normal a, w1, t1) => after t1 (k a w1)
    | (Returning v, w1, t1) => (Returning v, w1, t1)
    | (Raising e, w1, t1) => (Raising e, w1, t1)
    end.

Local Notation "x <- m ;; k" := (bind m (fun x => k))
  (at level 61, m at next level, right associativity).
Local Notation "m ;; k" := (bind m (fun _ => k))
  (at level 61, right associativity).

Definition emit (ev : event) : M unit := fun w => (Normal tt, w, [ev]).

(** A call into the host: its value, or its exception raised here. *)
Definition call_host (c : call) : M pyval :=
  fun w =>
    match host c w with
    | (Returns v, w1) => (Normal v, w1, [EvCall c (Returns v)])
    | (Raises e, w1) => (Raising e, w1, [EvCall c (Raises e)])
    end.

Definition get_app_context : M (option Context) :=
  fun w => (Normal (app_context w), w, []).

(** [try: body / except <catches> as e: handler e / else: orelse] *)
Definition try_except_else (body : M unit) (catches : exn -> bool)
    (handler : exn -> M unit) (orelse : M unit) : M unit :=
  fun w =>
    match body w with
    | (Normal _, w1, t1) => after t1 (orelse w1)
    | (Returning v, w1, t1) => (Returning v, w1, t1)
    | (Raising e, w1, t1) =>
        if catches e then after t1 (handler e w1) else (Raising e, w1, t1)
    end.

Definition try_except (body : M unit) (catches : exn -> bool)
    (handler : exn -> M unit) : M unit :=
  try_except_else body catches handler (ret tt).

(** A function body seen from its caller: falling off the end
    returns [None]. *)
Definition run_function (body : M unit) (w : W) : outcome * W * trace :=
  match body w with
  | (Normal _, w1, t) => (Returns PyNone, w1, t)
  | (Returning v, w1, t) => (Returns v, w1, t)
  | (Raising e, w1, t) => (Raises e, w1, t)
  end.

Definition log_exception (msg : string) (handling : exn) : M unit :=
  emit (EvLogException msg handling).
Definition log_debug (msg : string) : M unit := emit (EvLogDebug msg).
Definition exec_ (box : QMessageBox) : M unit := emit (EvMessageBox box).

(** The texts of the source. *)
Definition resolve_log_msg : string :=
  "Unable to resolve template fields after folder creation!".

Definition resolve_msg_head : string :=
  "Unable to resolve template fields after folder creation!  This could mean "
  ++ "there is a mismatch between your folder schema and templates. Please "
  ++ "contact us via ".

Definition resolve_msg_tail : string :=
  " if you need help fixing this." ++ nl ++ nl.

(** ["...{url}...\n\n{error}".format(url=url, error=error)] *)
Definition resolve_msg (url error : string) : string :=
  resolve_msg_head ++ url ++ resolve_msg_tail ++ error.

Definition reset_failed_msg : string :=
  "Unable to perform New Scene operation after failing to reset scene!".

(** ["Failed to complete '{}' action".format(self.label)] *)
Definition error_title_of (lbl : string) : string :=
  "Failed to complete '" ++ lbl ++ "' action".

Section Method.

Variable self : NewFileAction.
Variable parent_ui : QWidget.

Let env := _environment self.

(** Lines 64-85: the inner [try] with its [except TankError]. *)
Definition create_folders_and_validate : M unit :=
  try_except
    (call_host (CreateFoldersIfNeeded (context env) (work_template env)) ;;
     call_host (AsTemplateFields (context env) (work_template env) true) ;;
     ret tt)
    isinstance_TankError
    (fun e =>
       log_exception resolve_log_msg e ;;
       raise (TankError (resolve_msg support_url (exn_str e)))).

(** Lines 62-101: the body of the outer [try]. *)
Definition try_body : M unit :=
  create_folders_and_validate ;;
  r <- call_host (ResetCurrentScene NEW_FILE_ACTION (context env)) ;;
  (if negb (truthy r)
   then log_debug reset_failed_msg ;; return_ (PyBool false)
   else ret tt) ;;
  call_host (PrepareNewScene NEW_FILE_ACTION (context env)) ;;
  cur <- get_app_context ;;
  (if negb (context_eq (context env) cur)
   then call_host (ChangeContext (context env)) ;; ret tt
   else ret tt).

(** Lines 104-120: the message box of the outer handler. *)
Definition error_box (e : exn) : QMessageBox :=
  let error_title := error_title_of (label self) in
  let (first, rest) := split NL (exn_str e) in
  let text :=
    error_title
    ++ (if negb (String.eqb first "") then nl ++ nl ++ first else "") in
  let msg_box :=
    new_QMessageBox Information error_title text Ok parent_ui in
  let msg_box :=
    match rest with
    | [] => msg_box
    | _ :: _ => setDetailedText msg_box (join " " rest)
    end in
  setDefaultButton msg_box Ok.

(** Lines 103-124: [except Exception as e]. *)
Definition report_error (e : exn) : M unit :=
  exec_ (error_box e) ;;
  log_exception (error_title_of (label self)) e ;;
  return_ (PyBool false).

(** Lines 125-130: the [else] clause. *)
Definition record_metric : M unit :=
  try_except
    (call_host (LogMetric "New Workfile") ;; ret tt)
    isinstance_BaseException
    (fun _ => ret tt).

Definition execute_body : M unit :=
  (if negb (truthy (can_do_new_file env))
   then return_ (PyBool false)
   else ret tt) ;;
  try_except_else try_body isinstance_Exception report_error record_metric ;;
  return_ (PyBool true).

(** [NewFileAction.execute(self, parent_ui)] *)
Definition execute (w : W) : outcome * W * trace :=
  run_function execute_body w.

End Method.

End Execute.

Arguments Normal {A} a.
Arguments Returning {A} v.
Arguments Raising {A} e.

(** ** A scripted host, to run the action on concrete inputs

    The state of this host is the current context of the app; every
    call answers as the script says, and a context change that returns
    installs the new context. *)

Definition scripted_host (script : call -> outcome)
    (c : call) (w : option Context) : outcome * option Context :=
  (script c,
   match c, script c with
   | ChangeContext ctx, Returns _ => ctx
   | _, _ => w
   end).

(** Contexts of the examples are told apart by their task id. *)
Definition same_task (a b : option Context) : bool :=
  match a, b with
  | None, None => true
  | Some x, Some y =>
      match task x, task y with
      | PyInt i, PyInt j => Z.eqb i j
      | _, _ => false
      end
  | _, _ => false
  end.

Definition shot_context (task_id : Z) : Context :=
  mkContext (PyDict [("type", PyStr "Project"); ("id", PyInt 70)])
            (PyDict [("type", PyStr "Shot"); ("id", PyInt 1184)])
            PyNone (PyInt task_id) PyNone.

Definition shot_area (task_id : Z) : WorkArea :=
  mkWorkArea (Some (shot_context task_id)) (Some "maya_shot_work")
             (Some "shot_work_area_maya").

Definition new_file (env : WorkArea) : NewFileAction :=
  mkNewFileAction "New File" env.

Definition demo_url : string := "https://support.example.com".

Definition run_scripted (script : call -> outcome) (env : WorkArea)
    (parent_ui : QWidget) (current : option Context)
  : outcome * option Context * trace :=
  execute (option Context) (scripted_host script) (fun w => w) same_task
          demo_url "new_file"
          (new_file env) parent_ui current.

(** Scripts: every call returns; one step raises; the reset refuses. *)
Definition all_fine (c : call) : outcome :=
  match c with
  | ResetCurrentScene _ _ => Returns (PyBool true)
  | AsTemplateFields _ _ _ => Returns (PyDict [("Shot", PyStr "sh010")])
  | _ => Returns PyNone
  end.

Definition failing_at (s : orch_step) (e : exn) (c : call) : outcome :=
  if Nat.eqb (step_rank (step_of c)) (step_rank s) then Raises e else all_fine c.


Definition KeyboardInterrupt : exn := mkExn ClsBaseException "".
Definition schema_error : exn :=
  mkExn ClsTankError ("Folder schema mismatch" ++ nl ++ "Shot: sh010" ++ nl ++ "Step: anim").
Definition hook_error : exn := mkExn ClsException "hook failed".

Definition SystemExit : exn := mkExn ClsBaseException "1".

(** The action on a shot whose task is 5, started from parent widget 7
    while the app is in the context of task 6. *)
Definition demo_run (script : call -> outcome) : outcome * option Context * trace :=
  run_scripted script (shot_area 5) 7 (Some (shot_context 6)).

Definition demo_ctx : option Context := Some (shot_context 5).
Definition demo_tmpl : option Template := Some "maya_shot_work".

(** An invalid work area: no context. *)
Definition no_context_area : WorkArea :=
  mkWorkArea None (Some "maya_shot_work") (Some "shot_work_area_maya").

(** ** [execute] with every operation able to fail

    The embedding above takes the logging methods of the app, [str(e)]
    and the message box to return normally.  Here nothing that leaves
    the method is taken for granted: each of the six calls, each log
    entry, each [str(e)] and each operation on the message box is
    answered by the environment with a value, with an exception, or
    not at all. *)

Inductive answer (A : Type) : Type :=
| Gives (a : A)
| Throws (e : exn)
| Hangs.
Arguments Gives {A} a.
Arguments Throws {A} e.
Arguments Hangs {A}.

(** [self._app.log_exception(msg)] while [handling] is being handled,
    and [self._app.log_debug(msg)]. *)
Inductive log_op : Type :=
| LogException (msg : string) (handling : exn)
| LogDebug (msg : string).

(** The constructor of [QMessageBox] and the three methods called on
    the box; [box] is the state of the box before the operation. *)
Inductive qt_op : Type :=
| QNew (box : QMessageBox)
| QSetDetailedText (box : QMessageBox) (s : string)
| QSetDefaultButton (box : QMessageBox) (b : StandardButton)
| QExec (box : QMessageBox).

Inductive op_event : Type :=
| OnCall (c : call) (a : answer pyval)
| OnStr (e : exn) (a : answer string)
| OnLog (o : log_op) (a : answer unit)
| OnQt (o : qt_op) (a : answer unit).

Definition gave {A} (a : answer A) : bool :=
  match a with Gives _ => true | _ => false end.

Definition hung {A} (a : answer A) : bool :=
  match a with Hangs => true | _ => false end.

Definition thrown {A} (a : answer A) : option exn :=
  match a with Throws e => Some e | _ => None end.

(** The operation of the event did not come back. *)
Definition op_hung (ev : op_event) : bool :=
  match ev with
  | OnCall _ a => hung a
  | OnStr _ a => hung a
  | OnLog _ a => hung a
  | OnQt _ a => hung a
  end.

(** The exception the operation of the event raised, if any. *)
Definition op_thrown (ev : op_event) : option exn :=
  match ev with
  | OnCall _ a => thrown a
  | OnStr _ a => thrown a
  | OnLog _ a => thrown a
  | OnQt _ a => thrown a
  end.

Definition threw_Exception (ev : op_event) : bool :=
  match op_thrown ev with
  | Some e => isinstance_Exception e
  | None => false
  end.

(** Logging, [str(e)] and the message box returned normally. *)
Definition helper_returned (ev : op_event) : bool :=
  match ev with
  | OnCall _ _ => true
  | OnStr _ a => gave a
  | OnLog _ a => gave a
  | OnQt _ a => gave a
  end.

(** A call came back, and what it raised, if anything, is caught: any
    exception of the metrics call, an instance of [Exception] of the
    other calls. *)
Definition call_contained (ev : op_event) : bool :=
  match ev with
  | OnCall _ (Gives _) => true
  | OnCall (LogMetric _) (Throws _) => true
  | OnCall _ (Throws e) => isinstance_Exception e
  | OnCall _ Hangs => false
  | _ => true
  end.

Definition is_metric_call (ev : op_event) : bool :=
  match ev with OnCall (LogMetric _) _ => true | _ => false end.

Definition is_any_call (ev : op_event) : bool :=
  match ev with OnCall _ _ => true | _ => false end.

(** The dialog was put on screen: [exec_] was called. *)
Definition is_exec (ev : op_event) : bool :=
  match ev with OnQt (QExec _) _ => true | _ => false end.

Fixpoint ops_before (p : op_event -> bool) (t : list op_event) : list op_event :=
  match t with
  | [] => []
  | ev :: t' => if p ev then [] else ev :: ops_before p t'
  end.

(** The last operation of a run. *)
Fixpoint final_op (t : list op_event) : option op_event :=
  match t with
  | [] => None
  | [ev] => Some ev
  | _ :: t' => final_op t'
  end.

(** What the events of the first embedding see of an operation. *)
Definition nominal_event (ev : op_event) : list event :=
  match ev with
  | OnCall c (Gives v) => [EvCall c (Returns v)]
  | OnCall c (Throws e) => [EvCall c (Raises e)]
  | OnLog (LogException msg e) _ => [EvLogException msg e]
  | OnLog (LogDebug msg) _ => [EvLogDebug msg]
  | OnQt (QExec box) _ => [EvMessageBox box]
  | _ => []
  end.

Definition nominal_trace (t : list op_event) : trace :=
  flat_map nominal_event t.

Definition answer_of (o : outcome) : answer pyval :=
  match o with
  | Returns v => Gives v
  | Raises e => Throws e
  end.

(** The main text of the error box, from the title and the first line
    of the message (lines 106-109). *)
Definition error_text (error_title first : string) : string :=
  error_title ++ (if negb (String.eqb first "") then nl ++ nl ++ first else "").

Module Strict.

Section Execute.

Variable W : Type.

(** The environment: the six calls, [str(e)], the logging methods of
    the app and the message box. *)
Variable host : call -> W -> answer pyval * W.
Variable str : exn -> W -> answer string * W.
Variable app_log : log_op -> W -> answer unit * W.
Variable qt : qt_op -> W -> answer unit * W.

Variable app_context : W -> option Context.
Variable context_eq : option Context -> option Context -> bool.
Variable support_url : string.
Variable NEW_FILE_ACTION : string.

Inductive completion (A : Type) : Type :=
| Normal (a : A)
| Returning (v : pyval)
| Raising (e : exn)
| Hanging.
Arguments Normal {A} a.
Arguments Returning {A} v.
Arguments Raising {A} e.
Arguments Hanging {A}.

Definition M (A : Type) : Type := W -> completion A * W * list op_event.

Definition ret {A} (a : A) : M A := fun w => (Normal a, w, []).
Definition return_ {A} (v : pyval) : M A := fun w => (Returning v, w, []).
Definition raise {A} (e : exn) : M A := fun w => (Raising e, w, []).

Definition after {A} (t : list op_event) (r : completion A * W * list op_event)
  : completion A * W * list op_event :=
  match r with (c, w, t') => (c, w, (t ++ t')%list) end.

Definition bind {A B} (m : M A) (k : A -> M B) : M B :=
  fun w =>
    match m w with
    | (Normal a, w1, t1) => after t1 (k a w1)
    | (Returning v, w1, t1) => (Returning v, w1, t1)
    | (Raising e, w1, t1) => (Raising e, w1, t1)
    | (Hanging, w1, t1) => (Hanging, w1, t1)
    end.

Local Notation "x <- m ;; k" := (bind m (fun x => k))
  (at level 61, m at next level, right associativity).
Local Notation "m ;; k" := (bind m (fun _ => k))
  (at level 61, right associativity).

(** An operation: its value, its exception raised here, or no return. *)
Definition perform {A} (a : answer A * W) (ev : answer A -> op_event) : M A :=
  fun _ =>
    match a with
    | (Gives x, w1) => (Normal x, w1, [ev (Gives x)])
    | (Throws e, w1) => (Raising e, w1, [ev (Throws e)])
    | (Hangs, w1) => (Hanging, w1, [ev Hangs])
    end.

Definition call_host (c : call) : M pyval :=
  fun w => perform (host c w) (OnCall c) w.
Definition str_ (e : exn) : M string :=
  fun w => perform (str e w) (OnStr e) w.
Definition log_ (o : log_op) : M unit :=
  fun w => perform (app_log o w) (OnLog o) w.
Definition qt_ (o : qt_op) : M unit :=
  fun w => perform (qt o w) (OnQt o) w.

Definition get_app_context : M (option Context) :=
  fun w => (Normal (app_context w), w, []).

(** [try: body / except <catches> as e: handler e / else: orelse] *)
Definition try_except_else (body : M unit) (catches : exn -> bool)
    (handler : exn -> M unit) (orelse : M unit) : M unit :=
  fun w =>
    match body w with
    | (Normal _, w1, t1) => after t1 (orelse w1)
    | (Returning v, w1, t1) => (Returning v, w1, t1)
    | (Raising e, w1, t1) =>
        if catches e then after t1 (handler e w1) else (Raising e, w1, t1)
    | (Hanging, w1, t1) => (Hanging, w1, t1)
    end.

Definition try_except (body : M unit) (catches : exn -> bool)
    (handler : exn -> M unit) : M unit :=
  try_except_else body catches handler (ret tt).

Definition run_function (body : M unit) (w : W)
  : answer pyval * W * list op_event :=
  match body w with
  | (Normal _, w1, t) => (Gives PyNone, w1, t)
  | (Returning v, w1, t) => (Gives v, w1, t)
  | (Raising e, w1, t) => (Throws e, w1, t)
  | (Hanging, w1, t) => (Hangs, w1, t)
  end.

Section Method.

Variable self : NewFileAction.
Variable parent_ui : QWidget.

Let env := _environment self.

(** Lines 64-85: [log_exception], then [str(e)] for the new message,
    then the [raise]. *)
Definition create_folders_and_validate : M unit :=
  try_except
    (call_host (CreateFoldersIfNeeded (context env) (work_template env)) ;;
     call_host (AsTemplateFields (context env) (work_template env) true) ;;
     ret tt)
    isinstance_TankError
    (fun e =>
       log_ (LogException resolve_log_msg e) ;;
       error <- str_ e ;;
       raise (TankError (resolve_msg support_url error))).

(** Lines 62-101. *)
Definition try_body : M unit :=
  create_folders_and_validate ;;
  r <- call_host (ResetCurrentScene NEW_FILE_ACTION (context env)) ;;
  (if negb (truthy r)
   then log_ (LogDebug reset_failed_msg) ;; return_ (PyBool false)
   else ret tt) ;;
  call_host (PrepareNewScene NEW_FILE_ACTION (context env)) ;;
  cur <- get_app_context ;;
  (if negb (context_eq (context env) cur)
   then call_host (ChangeContext (context env)) ;; ret tt
   else ret tt).

(** Lines 103-124: the handler, statement by statement; nothing in it
    is guarded. *)
Definition report_error (e : exn) : M unit :=
  let error_title := error_title_of (label self) in
  message <- str_ e ;;
  let error_strs := split NL message in
  let text := error_text error_title (fst error_strs) in
  let msg_box := new_QMessageBox Information error_title text Ok parent_ui in
  qt_ (QNew msg_box) ;;
  msg_box' <- match snd error_strs with
              | [] => ret msg_box
              | _ :: _ =>
                  qt_ (QSetDetailedText msg_box (join " " (snd error_strs))) ;;
                  ret (setDetailedText msg_box (join " " (snd error_strs)))
              end ;;
  qt_ (QSetDefaultButton msg_box' Ok) ;;
  qt_ (QExec (setDefaultButton msg_box' Ok)) ;;
  log_ (LogException error_title e) ;;
  return_ (PyBool false).

(** Lines 125-130. *)
Definition record_metric : M unit :=
  try_except
    (call_host (LogMetric "New Workfile") ;; ret tt)
    isinstance_BaseException
    (fun _ => ret tt).

Definition execute_body : M unit :=
  (if negb (truthy (can_do_new_file env))
   then return_ (PyBool false)
   else ret tt) ;;
  try_except_else try_body isinstance_Exception report_error record_metric ;;
  return_ (PyBool true).

(** [NewFileAction.execute(self, parent_ui)] *)
Definition execute (w : W) : answer pyval * W * list op_event :=
  run_function execute_body w.

End Method.

End Execute.

End Strict.

(** A scripted environment for this embedding: calls answer as the
    script says, a context change that returns installs the context;
    [str(e)], logging and the message box answer as their scripts say
    and leave the state alone. *)
Definition scripted_calls (script : call -> answer pyval)
    (c : call) (w : option Context) : answer pyval * option Context :=
  (script c,
   match c, script c with
   | ChangeContext ctx, Gives _ => ctx
   | _, _ => w
   end).

Definition strict_run (script : call -> answer pyval)
    (strs : exn -> answer string) (logs : log_op -> answer unit)
    (qts : qt_op -> answer unit)
  : answer pyval * option Context * list op_event :=
  Strict.execute (option Context) (scripted_calls script)
    (fun e w => (strs e, w)) (fun o w => (logs o, w)) (fun o w => (qts o, w))
    (fun w => w) same_task demo_url "new_file"
    (new_file (shot_area 5)) 7 (Some (shot_context 6)).

Definition plain_str (e : exn) : answer string := Gives (exn_str e).
Definition fine {A : Type} (_ : A) : answer unit := Gives tt.

Definition calls_failing_at (s : orch_step) (e : exn) (c : call) : answer pyval :=
  answer_of (failing_at s e c).

(** [__str__] of the exception raises. *)
Definition broken_str (_ : exn) : answer string :=
  Throws (mkExn ClsException "bad __str__").

(** The log of the outer handler raises. *)
Definition failing_final_log (o : log_op) : answer unit :=
  match o with
  | LogException msg _ =>
      if String.eqb msg (error_title_of "New File")
      then Throws (mkExn ClsException "log failed")
      else Gives tt
  | LogDebug _ => Gives tt
  end.

(** The dialog is never dismissed. *)
Definition never_dismissed (o : qt_op) : answer unit :=
  match o with
  | QExec _ => Hangs
  | _ => Gives tt
  end.

(** The environment of the first embedding seen from here: calls
    answer as [host] does, [str(e)] gives the message of [e], logging
    and the message box return. *)
Definition reliable_calls {W : Type} (host : call -> W -> outcome * W)
    (c : call) (w : W) : answer pyval * W :=
  (answer_of (fst (host c w)), snd (host c w)).

Definition reliable_str {W : Type} (e : exn) (w : W) : answer string * W :=
  (Gives (exn_str e), w).

Definition reliable_helper {W A : Type} (_ : A) (w : W) : answer unit * W :=
  (Gives tt, w).

(** * Properties *)

(** ** Lines of a message

    [split] cuts a string into its lines and [join] with a newline
    puts them back; the lines of a string are unique. *)

Lemma split_line_break (l s : string) :
  no_newline l ->
  split NL (l ++ String NL s) =
  (l, fst (split NL s) :: snd (split NL s)).
Proof.
  unfold no_newline.
  induction l as [|c l IH]; simpl; intros Hl.
  - destruct (split NL s) as [x xs]. reflexivity.
  - apply orb_false_iff in Hl as [Hc Hl].
    rewrite (IH Hl), Hc. reflexivity.
Qed.

Lemma split_single_line (l : string) :
  no_newline l -> split NL l = (l, []).
Proof.
  unfold no_newline.
  induction l as [|c l IH]; simpl; intros Hl; [reflexivity|].
  apply orb_false_iff in Hl as [Hc Hl].
  rewrite (IH Hl), Hc. reflexivity.
Qed.

Lemma split_join (first : string) (rest : list string) :
  no_newline first -> Forall no_newline rest ->
  split NL (join nl (first :: rest)) = (first, rest).
Proof.
  revert first.
  induction rest as [|l rest IH]; intros first Hf Hr.
  - apply split_single_line, Hf.
  - inversion Hr as [|? ? Hl Hrest]; subst.
    change (join nl (first :: l :: rest))
      with (first ++ String NL (join nl (l :: rest))).
    rewrite (split_line_break _ _ Hf), (IH l Hl Hrest). reflexivity.
Qed.

Lemma join_cons (sep x y : string) (ys : list string) :
  join sep (x :: y :: ys) = x ++ sep ++ join sep (y :: ys).
Proof. reflexivity. Qed.

Lemma join_split (s : string) :
  join nl (fst (split NL s) :: snd (split NL s)) = s.
Proof.
  induction s as [|c s IH]; [reflexivity|].
  cbn [split]. destruct (split NL s) as [l ls]. cbn [fst snd] in IH.
  destruct (Ascii.eqb_spec c NL) as [->|Hc]; cbn [fst snd].
  - rewrite join_cons, IH. reflexivity.
  - destruct ls as [|l' ls].
    + rewrite <- IH. reflexivity.
    + rewrite <- IH. reflexivity.
Qed.

Lemma split_no_newline (s : string) :
  no_newline (fst (split NL s)) /\ Forall no_newline (snd (split NL s)).
Proof.
  unfold no_newline.
  induction s as [|c s [IHf IHr]]; simpl; [split; [reflexivity|constructor]|].
  destruct (split NL s) as [l ls]. simpl in *.
  destruct (Ascii.eqb c NL) eqn:Hc; simpl.
  - split; [reflexivity|]. constructor; assumption.
  - rewrite Hc. split; assumption.
Qed.

(** ** The validation check *)

(** C3: [can_do_new_file env] is truthy exactly when the context of
    [env] is not [None], its entity or its project is truthy, and the
    work area template of [env] is not [None]. *)
Theorem can_do_new_file_truthy_iff (env : WorkArea) :
  truthy (can_do_new_file env) = true <->
  (exists ctx, context env = Some ctx /\
               (truthy (entity ctx) = true \/ truthy (project ctx) = true)) /\
  work_area_template env <> None.
Proof.
  unfold can_do_new_file, py_and, py_or.
  destruct (context env) as [ctx|]; simpl.
  - destruct (truthy (entity ctx)) eqn:He.
    + rewrite He.
      destruct (work_area_template env); simpl; split.
      * intros _. split; [exists ctx; auto | discriminate].
      * reflexivity.
      * discriminate.
      * intros [_ H]. now elim H.
    + destruct (truthy (project ctx)) eqn:Hp.
      * destruct (work_area_template env); simpl; split.
        -- intros _. split; [exists ctx; auto | discriminate].
        -- reflexivity.
        -- discriminate.
        -- intros [_ H]. now elim H.
      * split.
        -- intros H. rewrite Hp in H. discriminate.
        -- intros [[c [Hc [H|H]]] _]; inversion Hc; subst; congruence.
  - split; [discriminate|].
    intros [[c [Hc _]] _]. discriminate.
Qed.

(** ** The message box of the error handler *)

Lemma error_box_fields (self : NewFileAction) (parent_ui : QWidget) (e : exn) :
  box_icon (error_box self parent_ui e) = Information /\
  box_title (error_box self parent_ui e) = error_title_of (label self) /\
  box_buttons (error_box self parent_ui e) = Ok /\
  box_parent (error_box self parent_ui e) = parent_ui /\
  box_defaultButton (error_box self parent_ui e) = Some Ok.
Proof.
  unfold error_box.
  destruct (split NL (exn_str e)) as [first [|l rest]]; simpl; auto.
Qed.

Lemma error_box_texts (self : NewFileAction) (parent_ui : QWidget) (e : exn) :
  let first := fst (split NL (exn_str e)) in
  let rest := snd (split NL (exn_str e)) in
  box_text (error_box self parent_ui e) =
    error_title_of (label self)
    ++ (if String.eqb first "" then "" else nl ++ nl ++ first) /\
  box_detailedText (error_box self parent_ui e) =
    match rest with
    | [] => None
    | _ :: _ => Some (join " " rest)
    end.
Proof.
  unfold error_box.
  destruct (split NL (exn_str e)) as [first [|l rest]]; simpl;
    destruct (String.eqb first ""); simpl; auto.
Qed.

Lemma append_assoc (a b c : string) : (a ++ b) ++ c = a ++ b ++ c.
Proof. induction a as [|x a IH]; simpl; [reflexivity | now rewrite IH]. Qed.



(** ** More on the validation check and the message box *)

Lemma can_do_new_file_context (env : WorkArea) :
  truthy (can_do_new_file env) = true ->
  exists ctx, context env = Some ctx /\
              (truthy (entity ctx) = true \/ truthy (project ctx) = true).
Proof.
  unfold can_do_new_file, py_and, py_or.
  destruct (context env) as [ctx|]; [|discriminate].
  intros H. exists ctx. split; [reflexivity|].
  destruct (truthy (entity ctx)) eqn:He; [now left|].
  destruct (truthy (project ctx)) eqn:Hp; [now right|].
  rewrite Hp in H. discriminate H.
Qed.

(** The value [can_do_new_file] returns is a Python bool, except for a
    context with neither entity nor project: then the [and] chain
    stops at the project of the context and returns that falsy value
    itself (for instance [None]). *)
Theorem can_do_new_file_value (env : WorkArea) :
  match context env with
  | None => can_do_new_file env = PyBool false
  | Some ctx =>
      if truthy (entity ctx) || truthy (project ctx)
      then can_do_new_file env =
           PyBool (match work_area_template env with
                   | Some _ => true
                   | None => false
                   end)
      else can_do_new_file env = project ctx /\
           truthy (can_do_new_file env) = false
  end.
Proof.
  unfold can_do_new_file, py_and, py_or.
  destruct (context env) as [ctx|]; [|reflexivity].
  destruct (truthy (entity ctx)) eqn:He; simpl.
  - now rewrite He.
  - destruct (truthy (project ctx)) eqn:Hp; simpl; rewrite ?Hp; auto.
Qed.

Lemma has_char_app (c : ascii) (a b : string) :
  has_char c (a ++ b) = has_char c a || has_char c b.
Proof.
  induction a as [|x a IH]; simpl; [reflexivity|].
  now rewrite IH, orb_assoc.
Qed.

Lemma split_rest_nil_iff (s : string) :
  snd (split NL s) = [] <-> no_newline s.
Proof.
  unfold no_newline.
  induction s as [|c s IH]; simpl; [tauto|].
  destruct (split NL s) as [l ls]. simpl in IH.
  destruct (Ascii.eqb c NL); simpl.
  - split; discriminate.
  - exact IH.
Qed.

(** The detailed text of the error box is left unset exactly when the
    message of the exception has no newline; the main text is then the
    title alone for an empty message, and the title, a blank line and
    the whole message otherwise. *)
Theorem error_box_single_line
    (self : NewFileAction) (parent_ui : QWidget) (e : exn) :
  (box_detailedText (error_box self parent_ui e) = None <->
   no_newline (exn_str e)) /\
  (no_newline (exn_str e) ->
   box_text (error_box self parent_ui e) =
     error_title_of (label self)
     ++ (if String.eqb (exn_str e) "" then "" else nl ++ nl ++ exn_str e)).
Proof.
  destruct (error_box_texts self parent_ui e) as [Htext Hdetail].
  cbv zeta in Htext, Hdetail. split.
  - rewrite Hdetail, <- split_rest_nil_iff.
    destruct (snd (split NL (exn_str e))); split;
      intros H; try reflexivity; discriminate H.
  - intros Hline. rewrite Htext, (split_single_line _ Hline). reflexivity.
Qed.

(** The box shown for a replaced [TankError], when the support URL has
    no newline: the main text is the title, a blank line and the
    explanation with the URL; the text of the original error appears in
    the detailed text only, after a leading space, its lines joined by
    single spaces. *)
Theorem error_box_of_replaced_error
    (self : NewFileAction) (parent_ui : QWidget) (url : string) (e : exn)
    (Hurl : no_newline url) :
  let box := error_box self parent_ui (TankError (resolve_msg url (exn_str e))) in
  box_text box =
    error_title_of (label self) ++ nl ++ nl
    ++ resolve_msg_head ++ url ++ " if you need help fixing this." /\
  box_detailedText box =
    Some (" " ++ join " " (fst (split NL (exn_str e))
                           :: snd (split NL (exn_str e)))).
Proof.
  intros box. subst box.
  set (first := resolve_msg_head ++ url ++ " if you need help fixing this.").
  set (l := fst (split NL (exn_str e))).
  set (ls := snd (split NL (exn_str e))).
  assert (Hmsg : resolve_msg url (exn_str e) = join nl (first :: "" :: l :: ls)).
  { rewrite !join_cons. unfold l, ls. rewrite join_split.
    unfold resolve_msg, resolve_msg_tail, first.
    now rewrite !append_assoc. }
  assert (Hfirst : no_newline first).
  { unfold no_newline, first in *. rewrite !has_char_app, Hurl. reflexivity. }
  assert (Hrest : Forall no_newline ("" :: l :: ls)).
  { destruct (split_no_newline (exn_str e)) as [Hl Hls].
    constructor; [reflexivity|]. constructor; assumption. }
  destruct (error_box_texts self parent_ui
              (TankError (resolve_msg url (exn_str e)))) as [Htext Hdetail].
  cbv zeta in Htext, Hdetail.
  change (exn_str (TankError (resolve_msg url (exn_str e))))
    with (resolve_msg url (exn_str e)) in Htext, Hdetail.
  rewrite Hmsg, (split_join first _ Hfirst Hrest) in Htext, Hdetail.
  cbn [fst snd] in Htext, Hdetail.
  rewrite Hmsg. split.
  - rewrite Htext. reflexivity.
  - rewrite Hdetail, join_cons. reflexivity.
Qed.

Section Properties.

Variable W : Type.
Variable host : call -> W -> outcome * W.
Variable app_context : W -> option Context.
Variable context_eq : option Context -> option Context -> bool.
Variable support_url : string.
Variable NEW_FILE_ACTION : string.

Local Abbreviation exec :=
  (execute W host app_context context_eq support_url NEW_FILE_ACTION).

(** *** Case analysis of a run

    A run is decided by the validation check, the outcome of each
    call into the host, and the tests on values and exception
    classes. *)

Ltac unfold_run :=
  unfold execute, run_function, execute_body, try_body,
    create_folders_and_validate, record_metric, report_error,
    try_except, try_except_else, bind, call_host, get_app_context,
    log_exception, log_debug, exec_, emit, ret, return_, raise in *.

Ltac split_call c w :=
  let o := fresh "o" in
  let w' := fresh "w" in
  let E := fresh "Hcall" in
  destruct (host c w) as [o w'] eqn:E; destruct o.

Ltac split_test b :=
  lazymatch b with
  | isinstance_BaseException _ => change b with true in *
  | isinstance_Exception (TankError _) => change b with true in *
  | negb ?b' => let E := fresh "Htest" in destruct b' eqn:E
  | _ => let E := fresh "Htest" in destruct b eqn:E
  end.

Ltac split_run :=
  repeat (cbn [after app fst snd negb] in *;
          match goal with
          | H : context [match host ?c ?w with _ => _ end] |- _ => split_call c w
          | |- context [match host ?c ?w with _ => _ end] => split_call c w
          | H : context [if ?b then _ else _] |- _ => split_test b
          | |- context [if ?b then _ else _] => split_test b
          end).

Ltac run_cases H :=
  unfold_run; split_run;
  try (injection H as <- <- <-); cbn [after app] in *.

Ltac split_membership :=
  repeat match goal with
         | H : In _ (_ :: _) |- _ => destruct H as [H|H]
         | H : In _ [] |- _ => destruct H
         | H : EvCall _ (Returns _) = EvCall _ (Raises _) |- _ => discriminate H
         | H : EvCall _ (Raises _) = EvCall _ (Returns _) |- _ => discriminate H
         | H : EvCall _ _ = EvCall _ _ |- _ => injection H as <- <-
         | H : EvCall _ _ = _ |- _ => discriminate H
         | H : EvLogException _ _ = _ |- _ => discriminate H
         | H : EvLogDebug _ = _ |- _ => discriminate H
         | H : EvMessageBox _ = EvMessageBox _ |- _ => injection H as <-
         | H : EvMessageBox _ = _ |- _ => discriminate H
         end.

(** Two answers of the host to one call in one state are the same. *)
Ltac same_call :=
  repeat match goal with
         | H1 : host ?c ?w = _, H2 : host ?c ?w = _ |- _ =>
             rewrite H1 in H2; injection H2 as ? ?; subst
         end.

(** C2: when the validation check fails, [execute] returns [False]
    at once: no call into the host, no log entry, no dialog, and the
    state of the host is untouched. *)
Theorem execute_invalid_returns_False
    (self : NewFileAction) (parent_ui : QWidget) (w : W)
    (Hinvalid : truthy (can_do_new_file (_environment self)) = false) :
  exec self parent_ui w = (Returns (PyBool false), w, []).
Proof.
  unfold execute, run_function, execute_body, bind, return_.
  rewrite Hinvalid. reflexivity.
Qed.

(** C4: the steps of a run are called in the order of the source,
    none before an earlier one; when validation passes and no step
    fails they are folder creation, template-field validation, scene
    reset, new-scene preparation, then at most one context change
    (and the metrics call last). *)
Theorem execute_step_order
    (self : NewFileAction) (parent_ui : QWidget) (w w' : W)
    (r : outcome) (tr : trace)
    (Hrun : exec self parent_ui w = (r, w', tr)) :
  Sorted.StronglySorted rank_lt (steps_of tr) /\
  (truthy (can_do_new_file (_environment self)) = true ->
   forallb step_succeeded tr = true ->
   steps_of tr = [FolderCreation; TemplateValidation; SceneReset;
                  ScenePreparation; MetricsLogging] \/
   steps_of tr = [FolderCreation; TemplateValidation; SceneReset;
                  ScenePreparation; ContextSwitch; MetricsLogging]).
Proof.
  run_cases Hrun; (split; [ | intros Hvalid Hok ]).
  all: try solve [ cbn [steps_of event_step step_of];
                   repeat constructor; unfold rank_lt; simpl; lia ].
  all: try congruence.
  all: cbn in Hok; try rewrite Htest0 in Hok; try discriminate Hok.
  all: cbn; auto.
Qed.

(** C5: [FileAction.change_context] is called exactly when the run
    reaches the end of the success path (validation passed, folder
    creation and template-field validation returned, the scene reset
    returned a truthy value, the preparation returned) and the
    context of the environment differs from the current context of
    the app; it is then called with the context of the environment. *)
Theorem change_context_called_iff
    (self : NewFileAction) (parent_ui : QWidget) (w w' : W)
    (r : outcome) (tr : trace)
    (Hrun : exec self parent_ui w = (r, w', tr)) :
  let env := _environment self in
  ((exists ctx o, In (EvCall (ChangeContext ctx) o) tr) <->
   (truthy (can_do_new_file env) = true /\
    exists v1 w1 v2 w2 v3 w3 v4 w4,
      host (CreateFoldersIfNeeded (context env) (work_template env)) w
        = (Returns v1, w1) /\
      host (AsTemplateFields (context env) (work_template env) true) w1
        = (Returns v2, w2) /\
      host (ResetCurrentScene NEW_FILE_ACTION (context env)) w2
        = (Returns v3, w3) /\
      truthy v3 = true /\
      host (PrepareNewScene NEW_FILE_ACTION (context env)) w3
        = (Returns v4, w4) /\
      context_eq (context env) (app_context w4) = false)) /\
  (forall ctx o, In (EvCall (ChangeContext ctx) o) tr -> ctx = context env).
Proof.
  intros env. subst env.
  run_cases Hrun;
    (split;
     [ split;
       [ intros [ctx [o Hin]]
       | intros [Hvalid (v1' & w1' & v2' & w2' & v3' & w3' & v4' & w4'
                         & H1 & H2 & H3 & Ht & H4 & Hne)] ]
     | intros ctx o Hin ]).
  all: try solve [ split_membership; reflexivity ].
  all: try solve [ split_membership; split; [ assumption | eauto 20 ] ].
  all: try solve [ same_call; congruence ].
  all: try solve [ eexists; eexists; simpl; eauto 10 ].
  all: split; [ reflexivity | do 8 eexists; repeat split; eassumption || reflexivity ].
Qed.



(** C8: when validation passes and every step up to the optional
    context change succeeds, [execute] calls
    [log_metric("New Workfile")] last and returns [True] whatever that
    call does, and shows no dialog. *)
Theorem metrics_failure_ignored
    (self : NewFileAction) (parent_ui : QWidget) (w w' : W)
    (r : outcome) (tr : trace)
    (Hvalid : truthy (can_do_new_file (_environment self)) = true)
    (Hrun : exec self parent_ui w = (r, w', tr))
    (Hok : forallb step_succeeded tr = true) :
  r = Returns (PyBool true) /\
  existsb is_dialog tr = false /\
  exists pre o, tr = (pre ++ [EvCall (LogMetric "New Workfile") o])%list.
Proof.
  run_cases Hrun; try congruence.
  all: cbn in Hok; try rewrite Htest0 in Hok; try discriminate Hok.
  all: split; [ reflexivity | split; [ reflexivity | ] ].
  all: try solve [ eexists [_; _; _; _]; eexists; reflexivity ].
  all: eexists [_; _; _; _; _]; eexists; reflexivity.
Qed.

(** [execute] is a function of the answers of the host: every run ends
    with a result, a final state and a trace. *)
Lemma execute_total
    (self : NewFileAction) (parent_ui : QWidget) (w : W) :
  exists r w' tr, exec self parent_ui w = (r, w', tr).
Proof.
  destruct (exec self parent_ui w) as [[r w'] tr]. now exists r, w', tr.
Qed.

(** Every message box of a run is the box of the error handler, shown
    as the last event but one, before the caught exception is logged. *)
Lemma dialog_is_error_box
    (self : NewFileAction) (parent_ui : QWidget) (w w' : W)
    (r : outcome) (tr : trace) (box : QMessageBox)
    (Hrun : exec self parent_ui w = (r, w', tr))
    (Hshown : In (EvMessageBox box) tr) :
  exists pre e,
    tr = (pre ++ [EvMessageBox box;
                  EvLogException (error_title_of (label self)) e])%list /\
    box = error_box self parent_ui e /\
    r = Returns (PyBool false).
Proof.
  run_cases Hrun; split_membership.
  all: try solve [ eexists [], _; repeat split ].
  all: try solve [ eexists [_], _; repeat split ].
  all: try solve [ eexists [_; _], _; repeat split ].
  all: try solve [ eexists [_; _; _], _; repeat split ].
  all: try solve [ eexists [_; _; _; _], _; repeat split ].
  all: eexists [_; _; _; _; _], _; repeat split.
Qed.

(** C10: the dialog [execute] shows for a caught exception [e] has the
    error title as window title; its main text is the error title,
    followed by a blank line and the first line of [str(e)] when that
    line is not empty; the remaining lines, when there are any, joined
    by single spaces are its detailed text, which is otherwise unset.
    Every message has such lines. *)
Theorem error_dialog_texts
    (self : NewFileAction) (parent_ui : QWidget) (w w' : W)
    (r : outcome) (tr : trace) (box : QMessageBox)
    (Hrun : exec self parent_ui w = (r, w', tr))
    (Hshown : In (EvMessageBox box) tr) :
  let title := "Failed to complete '" ++ label self ++ "' action" in
  exists pre e,
    tr = (pre ++ [EvMessageBox box; EvLogException title e])%list /\
    box_title box = title /\
    (exists first rest,
       exn_str e = join nl (first :: rest) /\
       no_newline first /\ Forall no_newline rest) /\
    forall first rest,
      exn_str e = join nl (first :: rest) ->
      no_newline first -> Forall no_newline rest ->
      box_text box =
        title ++ (if String.eqb first "" then "" else nl ++ nl ++ first) /\
      box_detailedText box =
        match rest with
        | [] => None
        | _ :: _ => Some (join " " rest)
        end.
Proof.
  intros title.
  destruct (dialog_is_error_box self parent_ui w w' r tr box Hrun Hshown)
    as (pre & e & Htr & -> & _).
  exists pre, e. split; [exact Htr|]. split; [apply error_box_fields|].
  split.
  { exists (fst (split NL (exn_str e))), (snd (split NL (exn_str e))).
    split; [symmetry; apply join_split | apply split_no_newline]. }
  intros first rest Hmsg Hfirst Hrest.
  pose proof (error_box_texts self parent_ui e) as Htexts.
  rewrite Hmsg, (split_join first rest Hfirst Hrest) in Htexts.
  exact Htexts.
Qed.

(** *** Further properties of a run *)

(** [log_metric] is called exactly on the runs that return [True]: it
    is then the last event, called once, with the name
    ["New Workfile"]. *)
Theorem metric_logged_iff_True
    (self : NewFileAction) (parent_ui : QWidget) (w w' : W)
    (r : outcome) (tr : trace)
    (Hrun : exec self parent_ui w = (r, w', tr)) :
  (existsb (is_step MetricsLogging) tr = true <-> r = Returns (PyBool true)) /\
  (r = Returns (PyBool true) ->
   exists pre o,
     tr = (pre ++ [EvCall (LogMetric "New Workfile") o])%list /\
     existsb (is_step MetricsLogging) pre = false).
Proof.
  run_cases Hrun; (split; [ split; intros H | intros H ]).
  all: try reflexivity; try discriminate H.
  all: try solve [ eexists [_; _; _; _], _; split; reflexivity ].
  all: eexists [_; _; _; _; _], _; split; reflexivity.
Qed.

(** A run returns [True] only on the success path: validation passed,
    every step before the metrics call succeeded, and nothing was
    logged or shown. *)
Theorem True_only_on_success
    (self : NewFileAction) (parent_ui : QWidget) (w w' : W)
    (r : outcome) (tr : trace)
    (Hrun : exec self parent_ui w = (r, w', tr))
    (Htrue : r = Returns (PyBool true)) :
  truthy (can_do_new_file (_environment self)) = true /\
  forallb step_succeeded tr = true /\
  forallb is_host_call tr = true.
Proof.
  run_cases Hrun; try discriminate Htrue.
  all: repeat split; try assumption; cbn; rewrite ?Htest0; reflexivity.
Qed.

(** A run returns [False] for one of three reasons: validation failed
    and nothing happened; the scene reset returned a falsy value, which
    is the last call and is followed by a debug log entry only; or an
    instance of [Exception] was caught, shown in the error box and
    logged. *)
Theorem False_has_three_causes
    (self : NewFileAction) (parent_ui : QWidget) (w w' : W)
    (r : outcome) (tr : trace)
    (Hrun : exec self parent_ui w = (r, w', tr))
    (Hfalse : r = Returns (PyBool false)) :
  (truthy (can_do_new_file (_environment self)) = false /\ tr = []) \/
  (exists pre v,
     tr = (pre ++ [EvCall (ResetCurrentScene NEW_FILE_ACTION
                             (context (_environment self))) (Returns v);
                   EvLogDebug reset_failed_msg])%list /\
     truthy v = false /\ forallb is_host_call pre = true) \/
  (exists pre e,
     tr = (pre ++ [EvMessageBox (error_box self parent_ui e);
                   EvLogException (error_title_of (label self)) e])%list /\
     isinstance_Exception e = true).
Proof.
  run_cases Hrun; try discriminate Hfalse.
  all: try solve [ left; split; reflexivity ].
  all: try solve [ right; left; eexists [_; _], _; repeat split; assumption ].
  all: right; right.
  all: try solve [ eexists [_], _; split; [ reflexivity | assumption || reflexivity ] ].
  all: try solve [ eexists [_; _], _; split; [ reflexivity | assumption || reflexivity ] ].
  all: try solve [ eexists [_; _; _], _; split; [ reflexivity | assumption || reflexivity ] ].
  all: try solve [ eexists [_; _; _; _], _; split; [ reflexivity | assumption || reflexivity ] ].
  all: eexists [_; _; _; _; _], _; split; [ reflexivity | assumption || reflexivity ].
Qed.



(** Every call of a run is made with the arguments of the source: with
    the context of the work area, with its work template (never its
    work area template), with [validate=True], with the new-file scene
    operation, with the metric name ["New Workfile"].  That context is
    never [None] and has a truthy entity or project. *)
Theorem calls_as_written
    (self : NewFileAction) (parent_ui : QWidget) (w w' : W)
    (r : outcome) (tr : trace) (c : call) (o : outcome)
    (Hrun : exec self parent_ui w = (r, w', tr))
    (Hcall : In (EvCall c o) tr) :
  call_as_written (_environment self) NEW_FILE_ACTION c /\
  exists ctx, context (_environment self) = Some ctx /\
              (truthy (entity ctx) = true \/ truthy (project ctx) = true).
Proof.
  run_cases Hrun; split_membership.
  all: split; [ cbn; auto | apply can_do_new_file_context; assumption ].
Qed.

(** A call that raises is the last call of the run: after an exception
    of folder creation no template fields are asked for, and so on for
    every later step. *)
Theorem raising_call_is_last_call
    (self : NewFileAction) (parent_ui : QWidget) (w w' : W)
    (r : outcome) (tr : trace)
    (Hrun : exec self parent_ui w = (r, w', tr)) :
  existsb is_host_call (events_after is_raising_call tr) = false /\
  length (filter is_raising_call tr) <= 1.
Proof.
  run_cases Hrun; split; cbn; solve [ reflexivity | lia ].
Qed.

(** A run of a valid work area starts with the folder creation call; a
    run of an invalid one has no event at all. *)
Theorem folder_creation_first_iff_valid
    (self : NewFileAction) (parent_ui : QWidget) (w w' : W)
    (r : outcome) (tr : trace)
    (Hrun : exec self parent_ui w = (r, w', tr)) :
  let env := _environment self in
  (truthy (can_do_new_file env) = true <->
   exists o rest,
     tr = EvCall (CreateFoldersIfNeeded (context env) (work_template env)) o
          :: rest) /\
  (truthy (can_do_new_file env) = false <-> tr = []).
Proof.
  intros env. subst env.
  run_cases Hrun; (split; split; intros H).
  all: try reflexivity; try discriminate H; try congruence.
  all: try solve [ destruct H as (o & rest & H); discriminate H ].
  all: eexists _, _; reflexivity.
Qed.

End Properties.

(** * Properties of [execute] when every operation may fail *)

Section StrictProperties.

Variable W : Type.
Variable host : call -> W -> answer pyval * W.
Variable str : exn -> W -> answer string * W.
Variable app_log : log_op -> W -> answer unit * W.
Variable qt : qt_op -> W -> answer unit * W.
Variable app_context : W -> option Context.
Variable context_eq : option Context -> option Context -> bool.
Variable support_url : string.
Variable NEW_FILE_ACTION : string.

Local Abbreviation strict_exec :=
  (Strict.execute W host str app_log qt app_context context_eq
                  support_url NEW_FILE_ACTION).

Ltac strict_unfold :=
  unfold Strict.execute, Strict.run_function, Strict.execute_body,
    Strict.try_body, Strict.create_folders_and_validate,
    Strict.record_metric, Strict.report_error, Strict.try_except,
    Strict.try_except_else, Strict.bind, Strict.call_host, Strict.str_,
    Strict.log_, Strict.qt_, Strict.perform, Strict.get_app_context,
    Strict.ret, Strict.return_, Strict.raise in *.

Ltac strict_answer t :=
  let a := fresh "a" in
  let w' := fresh "w" in
  let E := fresh "Hop" in
  destruct t as [a w'] eqn:E; destruct a.

Ltac strict_test b :=
  lazymatch b with
  | isinstance_BaseException _ => change b with true in *
  | isinstance_Exception (TankError _) => change b with true in *
  | negb ?b' => let E := fresh "Htest" in destruct b' eqn:E
  | _ => let E := fresh "Htest" in destruct b eqn:E
  end.

Ltac strict_step :=
  match goal with
  | H : context [match host ?c ?w with _ => _ end] |- _ => strict_answer (host c w)
  | H : context [match str ?e ?w with _ => _ end] |- _ => strict_answer (str e w)
  | H : context [match app_log ?o ?w with _ => _ end] |- _ => strict_answer (app_log o w)
  | H : context [match qt ?o ?w with _ => _ end] |- _ => strict_answer (qt o w)
  | H : context [match snd (split NL ?m) with _ => _ end] |- _ =>
      let E := fresh "Hrest" in destruct (snd (split NL m)) eqn:E
  | H : context [if ?b then _ else _] |- _ => strict_test b
  end.

Ltac strict_cases H :=
  strict_unfold;
  repeat (cbn [Strict.after app fst snd negb] in H; strict_step);
  cbn [Strict.after app fst snd negb] in H;
  injection H as <- <- <-.

Ltac strict_membership :=
  repeat match goal with
         | H : In _ (_ :: _) |- _ => destruct H as [H|H]
         | H : In _ [] |- _ => destruct H
         | H : OnCall _ (Gives _) = OnCall _ (Throws _) |- _ => discriminate H
         | H : OnCall _ Hangs = OnCall _ (Throws _) |- _ => discriminate H
         | H : OnCall _ _ = OnCall _ _ |- _ => injection H as <- <-
         | H : OnStr _ _ = OnCall _ _ |- _ => discriminate H
         | H : OnLog _ _ = OnCall _ _ |- _ => discriminate H
         | H : OnQt _ _ = OnCall _ _ |- _ => discriminate H
         end.

Ltac not_Exception_in H :=
  repeat match goal with
         | E : isinstance_Exception _ = false |- _ => rewrite E in H
         end.

Lemma final_op_In (t : list op_event) (ev : op_event) :
  final_op t = Some ev -> In ev t.
Proof.
  induction t as [|x t IH]; [discriminate|].
  destruct t as [|y t].
  - intros [= ->]. now left.
  - intros H. right. exact (IH H).
Qed.

(** C1, amended: an instance of [Exception] raised by folder creation,
    template-field validation, scene reset, new-scene preparation or
    context change makes [execute] show the message box, parented to
    [parent_ui], and return [False], provided the logging, [str(e)]
    and message-box operations of the run return normally. *)
Theorem execute_reports_Exception_if_helpers_return
    (self : NewFileAction) (parent_ui : QWidget) (w w' : W)
    (r : answer pyval) (tr : list op_event) (c : call) (e : exn)
    (Hrun : strict_exec self parent_ui w = (r, w', tr))
    (Hraised : In (OnCall c (Throws e)) tr)
    (Hstep : step_of c <> MetricsLogging)
    (Hcls : isinstance_Exception e = true)
    (Hhelpers : forallb helper_returned tr = true) :
  r = Gives (PyBool false) /\
  exists box, In (OnQt (QExec box) (Gives tt)) tr /\ box_parent box = parent_ui.
Proof.
  strict_cases Hrun.
  all: try solve [ cbn in Hhelpers; discriminate Hhelpers ].
  all: strict_membership.
  all: try solve [ exfalso; apply Hstep; reflexivity ].
  all: try congruence.
  all: repeat match goal with u : unit |- _ => destruct u end.
  all: split;
    [ reflexivity
    | eexists; split;
      [ repeat first [ left; reflexivity | right ] | reflexivity ] ].
Qed.

(** An exception that leaves [execute] was raised by the last
    operation of the run, and leaves as it was raised.  When that
    operation is one of the six calls, the exception is no instance of
    [Exception], the call is not the metrics call, and the run made
    calls only. *)
Lemma propagated_by_final_op
    (self : NewFileAction) (parent_ui : QWidget) (w w' : W)
    (r : answer pyval) (tr : list op_event) (e : exn)
    (Hrun : strict_exec self parent_ui w = (r, w', tr))
    (Hprop : r = Throws e) :
  exists ev,
    final_op tr = Some ev /\ op_thrown ev = Some e /\
    (is_any_call ev = true ->
     is_metric_call ev = false /\ isinstance_Exception e = false /\
     forallb is_any_call tr = true).
Proof.
  strict_cases Hrun.
  all: try discriminate Hprop.
  all: injection Hprop as <-.
  all: eexists; split; [ reflexivity | split; [ reflexivity | ] ].
  all: cbn; intros Hcall; try discriminate Hcall.
  all: repeat split; try assumption.
  all: unfold isinstance_TankError, isinstance_Exception in *;
       destruct (exn_cls _); congruence.
Qed.

(** C9, amended: [execute] fails to end only when an operation it
    performs fails to end.  It ends with [True] or [False] when every
    call comes back, no call before the metrics call raises an
    exception outside [Exception], and the logging, [str(e)] and
    message-box operations return normally.  An exception it
    propagates was raised by an operation of the run, never by the
    metrics call, and by one of the other calls only if it is no
    instance of [Exception]. *)
Theorem execute_outcome
    (self : NewFileAction) (parent_ui : QWidget) (w w' : W)
    (r : answer pyval) (tr : list op_event)
    (Hrun : strict_exec self parent_ui w = (r, w', tr)) :
  (r = Hangs <-> existsb op_hung tr = true) /\
  (forallb call_contained tr = true ->
   forallb helper_returned tr = true ->
   exists b, r = Gives (PyBool b)) /\
  (forall e, r = Throws e ->
     exists ev, In ev tr /\ op_thrown ev = Some e /\
                (is_any_call ev = true ->
                 is_metric_call ev = false /\ isinstance_Exception e = false)).
Proof.
  split; [ | split ].
  - strict_cases Hrun.
    all: cbn; split; intros H; first [ reflexivity | discriminate H ].
  - intros Hcalls Hhelpers.
    strict_cases Hrun.
    all: try solve [ eexists; reflexivity ].
    all: try solve [ cbn in Hhelpers; discriminate Hhelpers ].
    all: cbn in Hcalls; not_Exception_in Hcalls; discriminate Hcalls.
  - intros e Hprop.
    destruct (propagated_by_final_op self parent_ui w w' r tr e Hrun Hprop)
      as (ev & Hlast & Hthrown & Hcall).
    exists ev. split; [ exact (final_op_In tr ev Hlast) | ].
    split; [ exact Hthrown | ].
    intros H. destruct (Hcall H) as (Hm & He & _). now split.
Qed.

(** An exception that propagates out of [execute] is the one the last
    operation of the run raised, unchanged.  If that operation is one
    of the six calls, the run is silent: it made calls only (no log
    entry, no dialog), the call is not the metrics call and the
    exception is no instance of [Exception]. *)
Theorem propagated_exception_is_last_raised
    (self : NewFileAction) (parent_ui : QWidget) (w w' : W)
    (r : answer pyval) (tr : list op_event) (e : exn)
    (Hrun : strict_exec self parent_ui w = (r, w', tr))
    (Hprop : r = Throws e) :
  exists pre ev,
    tr = (pre ++ [ev])%list /\ op_thrown ev = Some e /\
    (is_any_call ev = true ->
     is_metric_call ev = false /\ isinstance_Exception e = false /\
     forallb is_any_call tr = true).
Proof.
  destruct (propagated_by_final_op self parent_ui w w' r tr e Hrun Hprop)
    as (ev & Hlast & Hthrown & Hcall).
  assert (Hsplit : forall t x, final_op t = Some x ->
                               exists pre, t = (pre ++ [x])%list).
  { induction t as [|y t IH]; [discriminate|].
    destruct t as [|z t].
    - intros x [= ->]. now exists [].
    - intros x H. destruct (IH x H) as [pre Hpre].
      exists (y :: pre). simpl. now rewrite <- Hpre. }
  destruct (Hsplit tr ev Hlast) as [pre Hpre].
  exists pre, ev. repeat split; try assumption; apply Hcall; assumption.
Qed.

(** The dialog is put on screen at most once in a run, and only after
    an operation of the run raised an instance of [Exception]; such a
    run never returns [True], and it returns [False] when the logging,
    [str(e)] and message-box operations return normally. *)
Theorem dialog_only_after_Exception
    (self : NewFileAction) (parent_ui : QWidget) (w w' : W)
    (r : answer pyval) (tr : list op_event)
    (Hrun : strict_exec self parent_ui w = (r, w', tr)) :
  length (filter is_exec tr) <= 1 /\
  (existsb is_exec tr = true ->
   existsb threw_Exception (ops_before is_exec tr) = true /\
   r <> Gives (PyBool true) /\
   (forallb helper_returned tr = true -> r = Gives (PyBool false))).
Proof.
  strict_cases Hrun.
  all: split; [ cbn; lia | intros Hshown ].
  all: try solve [ cbn in Hshown; discriminate Hshown ].
  all: split;
    [ cbn [ops_before is_exec existsb threw_Exception op_thrown thrown];
      unfold isinstance_TankError, isinstance_Exception in *;
      repeat match goal with
             | |- context [exn_cls ?x] =>
                 is_var x; destruct (exn_cls x); try discriminate
             end;
      reflexivity
    | split;
      [ discriminate
      | intros Hhelpers;
        first [ reflexivity | cbn in Hhelpers; discriminate Hhelpers ] ] ].
Qed.

End StrictProperties.

(** * The first embedding as a case of the second *)

Section Refinement.

Variable W : Type.
Variable host : call -> W -> outcome * W.
Variable app_context : W -> option Context.
Variable context_eq : option Context -> option Context -> bool.
Variable support_url : string.
Variable NEW_FILE_ACTION : string.

(** When [str(e)], logging and the message box return normally and
    every call comes back, the run in which every operation may fail is
    the run of the first embedding: same result, same final state, and
    the same events once the operations the first embedding does not
    record are left out. *)
Theorem strict_run_with_reliable_helpers
    (self : NewFileAction) (parent_ui : QWidget) (w w' : W)
    (r : outcome) (tr : trace)
    (Hrun : execute W host app_context context_eq support_url NEW_FILE_ACTION
                    self parent_ui w = (r, w', tr)) :
  exists ops,
    Strict.execute W (reliable_calls host) reliable_str
      reliable_helper reliable_helper
      app_context context_eq support_url NEW_FILE_ACTION self parent_ui w
    = (answer_of r, w', ops) /\
    nominal_trace ops = tr /\
    forallb helper_returned ops = true.
Proof.
  unfold execute, run_function, execute_body, try_body,
    create_folders_and_validate, record_metric, report_error,
    try_except, try_except_else, bind, call_host, get_app_context,
    log_exception, log_debug, exec_, emit, ret, return_, raise in Hrun.
  unfold Strict.execute, Strict.run_function, Strict.execute_body,
    Strict.try_body, Strict.create_folders_and_validate,
    Strict.record_metric, Strict.report_error, Strict.try_except,
    Strict.try_except_else, Strict.bind, Strict.call_host, Strict.str_,
    Strict.log_, Strict.qt_, Strict.perform, Strict.get_app_context,
    Strict.ret, Strict.return_, Strict.raise,
    reliable_calls, reliable_str, reliable_helper.
  repeat (cbn [after Strict.after app fst snd negb answer_of] in *;
          match goal with
          | H : context [match host ?c ?w with _ => _ end] |- _ =>
              let o := fresh "o" in
              let w' := fresh "w" in
              destruct (host c w) as [o w']; destruct o
          | H : context [if ?b then _ else _] |- _ =>
              lazymatch b with
              | isinstance_BaseException _ => change b with true in *
              | isinstance_Exception (TankError _) => change b with true in *
              | negb ?b' => destruct b' eqn:?
              | _ => destruct b eqn:?
              end
          end).
  all: cbn [after Strict.after app fst snd negb answer_of] in *.
  all: injection Hrun as <- <- <-.
  all: unfold error_box, error_text.
  all: repeat match goal with
              | |- context [split NL ?m] =>
                  destruct (split NL m) as [? [|? ?]]
              end.
  all: cbn [after Strict.after app fst snd negb answer_of].
  all: eexists; split; [ reflexivity | split; reflexivity ].
Qed.

End Refinement.

(** * Concrete runs *)

Example demo_success :
  fst (fst (demo_run all_fine)) = Returns (PyBool true) /\
  steps_of (snd (demo_run all_fine)) =
    [FolderCreation; TemplateValidation; SceneReset; ScenePreparation;
     ContextSwitch; MetricsLogging] /\
  snd (fst (demo_run all_fine)) = demo_ctx.
Proof. repeat split. Qed.

Example demo_schema_error_dialog :
  exists pre e,
    snd (demo_run (failing_at TemplateValidation schema_error)) =
      (pre ++ [EvMessageBox
                 (mkQMessageBox Information
                    "Failed to complete 'New File' action"
                    ("Failed to complete 'New File' action" ++ nl ++ nl
                     ++ resolve_msg_head ++ demo_url
                     ++ " if you need help fixing this.")
                    Ok 7
                    (Some " Folder schema mismatch Shot: sh010 Step: anim")
                    (Some Ok));
               EvLogException "Failed to complete 'New File' action" e])%list.
Proof. eexists [_; _; _], _. reflexivity. Qed.

Example can_do_new_file_examples :
  can_do_new_file (shot_area 5) = PyBool true /\
  can_do_new_file no_context_area = PyBool false /\
  can_do_new_file
    (mkWorkArea (Some (mkContext PyNone (PyDict []) PyNone PyNone PyNone))
                None (Some "t")) = PyNone /\
  can_do_new_file
    (mkWorkArea (Some (mkContext (PyDict [("id", PyInt 70)]) PyNone PyNone PyNone PyNone))
                None None) = PyBool false.
Proof. repeat split. Qed.

Lemma execute_invalid_returns_False_witness :
  run_scripted all_fine no_context_area 7 (Some (shot_context 6))
  = (Returns (PyBool false), Some (shot_context 6), []).
Proof.
  apply (execute_invalid_returns_False (option Context) (scripted_host all_fine)
           (fun w => w) same_task demo_url "new_file" (new_file no_context_area) 7
           (Some (shot_context 6))).
  reflexivity.
Defined.

(** C1 as stated fails: a [KeyboardInterrupt] raised by folder creation
    leaves [execute] as it is, no dialog is shown and nothing is
    returned. *)
Lemma keyboard_interrupt_not_reported :
  let run := demo_run (failing_at FolderCreation KeyboardInterrupt) in
  In (EvCall (CreateFoldersIfNeeded demo_ctx demo_tmpl) (Raises KeyboardInterrupt))
     (snd run) /\
  fst (fst run) = Raises KeyboardInterrupt /\
  fst (fst run) <> Returns (PyBool false) /\
  (forall box, ~ In (EvMessageBox box) (snd run)).
Proof.
  cbv zeta. repeat split.
  - left. reflexivity.
  - discriminate.
  - intros box [H|[]]. discriminate H.
Qed.

Lemma execute_step_order_witness :
  let tr := snd (demo_run all_fine) in
  StronglySorted rank_lt (steps_of tr) /\
  (truthy (can_do_new_file (shot_area 5)) = true ->
   forallb step_succeeded tr = true ->
   steps_of tr = [FolderCreation; TemplateValidation; SceneReset;
                  ScenePreparation; MetricsLogging] \/
   steps_of tr = [FolderCreation; TemplateValidation; SceneReset;
                  ScenePreparation; ContextSwitch; MetricsLogging]).
Proof.
  cbv zeta.
  apply (execute_step_order (option Context) (scripted_host all_fine)
           (fun w => w) same_task demo_url "new_file" (new_file (shot_area 5)) 7
           (Some (shot_context 6))
           (snd (fst (demo_run all_fine))) (fst (fst (demo_run all_fine)))).
  reflexivity.
Defined.

Lemma change_context_called_iff_witness :
  let tr := snd (demo_run all_fine) in
  let host := scripted_host all_fine in
  ((exists ctx o, In (EvCall (ChangeContext ctx) o) tr) <->
   (truthy (can_do_new_file (shot_area 5)) = true /\
    exists v1 w1 v2 w2 v3 w3 v4 w4,
      host (CreateFoldersIfNeeded demo_ctx demo_tmpl) (Some (shot_context 6))
        = (Returns v1, w1) /\
      host (AsTemplateFields demo_ctx demo_tmpl true) w1 = (Returns v2, w2) /\
      host (ResetCurrentScene "new_file" demo_ctx) w2 = (Returns v3, w3) /\
      truthy v3 = true /\
      host (PrepareNewScene "new_file" demo_ctx) w3 = (Returns v4, w4) /\
      same_task demo_ctx w4 = false)) /\
  (forall ctx o, In (EvCall (ChangeContext ctx) o) tr -> ctx = demo_ctx).
Proof.
  cbv zeta.
  apply (change_context_called_iff (option Context) (scripted_host all_fine)
           (fun w => w) same_task demo_url "new_file" (new_file (shot_area 5)) 7
           (Some (shot_context 6))
           (snd (fst (demo_run all_fine))) (fst (fst (demo_run all_fine)))).
  reflexivity.
Defined.



Lemma metrics_failure_ignored_witness :
  let run := demo_run (failing_at MetricsLogging SystemExit) in
  fst (fst run) = Returns (PyBool true) /\
  existsb is_dialog (snd run) = false /\
  exists pre o, snd run = (pre ++ [EvCall (LogMetric "New Workfile") o])%list.
Proof.
  cbv zeta.
  apply (metrics_failure_ignored (option Context)
           (scripted_host (failing_at MetricsLogging SystemExit))
           (fun w => w) same_task demo_url "new_file" (new_file (shot_area 5)) 7
           (Some (shot_context 6))
           (snd (fst (demo_run (failing_at MetricsLogging SystemExit))))).
  - reflexivity.
  - reflexivity.
  - reflexivity.
Defined.

(** The metrics call of that run did raise. *)
Example demo_metrics_raised :
  In (EvCall (LogMetric "New Workfile") (Raises SystemExit))
     (snd (demo_run (failing_at MetricsLogging SystemExit))).
Proof. vm_compute. tauto. Qed.

(** C9 as stated fails: a [SystemExit] raised by the scene reset is
    propagated to the caller of [execute]. *)
Lemma system_exit_propagates :
  let run := demo_run (failing_at SceneReset SystemExit) in
  run = (Raises SystemExit, Some (shot_context 6),
         [EvCall (CreateFoldersIfNeeded demo_ctx demo_tmpl) (Returns PyNone);
          EvCall (AsTemplateFields demo_ctx demo_tmpl true)
                 (Returns (PyDict [("Shot", PyStr "sh010")]));
          EvCall (ResetCurrentScene "new_file" demo_ctx) (Raises SystemExit)]) /\
  ~ (exists b, fst (fst run) = Returns (PyBool b)).
Proof.
  cbv zeta. split; [reflexivity|].
  intros [b H]. discriminate H.
Qed.

Lemma error_dialog_texts_witness :
  let run := demo_run (failing_at FolderCreation schema_error) in
  let box :=
    error_box (new_file (shot_area 5)) 7
              (TankError (resolve_msg demo_url (exn_str schema_error))) in
  let title := "Failed to complete '" ++ "New File" ++ "' action" in
  exists pre e,
    snd run = (pre ++ [EvMessageBox box; EvLogException title e])%list /\
    box_title box = title /\
    (exists first rest,
       exn_str e = join nl (first :: rest) /\
       no_newline first /\ Forall no_newline rest) /\
    forall first rest,
      exn_str e = join nl (first :: rest) ->
      no_newline first -> Forall no_newline rest ->
      box_text box =
        title ++ (if String.eqb first "" then "" else nl ++ nl ++ first) /\
      box_detailedText box =
        match rest with
        | [] => None
        | _ :: _ => Some (join " " rest)
        end.
Proof.
  cbv zeta.
  apply (error_dialog_texts (option Context)
           (scripted_host (failing_at FolderCreation schema_error))
           (fun w => w) same_task demo_url "new_file" (new_file (shot_area 5)) 7
           (Some (shot_context 6))
           (snd (fst (demo_run (failing_at FolderCreation schema_error))))
           (fst (fst (demo_run (failing_at FolderCreation schema_error))))).
  - reflexivity.
  - vm_compute. tauto.
Defined.

(** ** Concrete runs for the further properties *)

Lemma metric_logged_iff_True_witness :
  let run := demo_run all_fine in
  (existsb (is_step MetricsLogging) (snd run) = true <->
   fst (fst run) = Returns (PyBool true)) /\
  (fst (fst run) = Returns (PyBool true) ->
   exists pre o,
     snd run = (pre ++ [EvCall (LogMetric "New Workfile") o])%list /\
     existsb (is_step MetricsLogging) pre = false).
Proof.
  cbv zeta.
  apply (metric_logged_iff_True (option Context) (scripted_host all_fine)
           (fun w => w) same_task demo_url "new_file" (new_file (shot_area 5)) 7
           (Some (shot_context 6)) (snd (fst (demo_run all_fine)))).
  reflexivity.
Defined.

Lemma True_only_on_success_witness :
  let run := demo_run all_fine in
  truthy (can_do_new_file (shot_area 5)) = true /\
  forallb step_succeeded (snd run) = true /\
  forallb is_host_call (snd run) = true.
Proof.
  cbv zeta.
  apply (True_only_on_success (option Context) (scripted_host all_fine)
           (fun w => w) same_task demo_url "new_file" (new_file (shot_area 5)) 7
           (Some (shot_context 6)) (snd (fst (demo_run all_fine)))
           (fst (fst (demo_run all_fine)))).
  - reflexivity.
  - reflexivity.
Defined.

Lemma False_has_three_causes_witness :
  let run := demo_run (failing_at SceneReset hook_error) in
  let self := new_file (shot_area 5) in
  (truthy (can_do_new_file (shot_area 5)) = false /\ snd run = []) \/
  (exists pre v,
     snd run = (pre ++ [EvCall (ResetCurrentScene "new_file" demo_ctx) (Returns v);
                        EvLogDebug reset_failed_msg])%list /\
     truthy v = false /\ forallb is_host_call pre = true) \/
  (exists pre e,
     snd run = (pre ++ [EvMessageBox (error_box self 7 e);
                        EvLogException (error_title_of "New File") e])%list /\
     isinstance_Exception e = true).
Proof.
  cbv zeta.
  apply (False_has_three_causes (option Context)
           (scripted_host (failing_at SceneReset hook_error))
           (fun w => w) same_task demo_url "new_file" (new_file (shot_area 5)) 7
           (Some (shot_context 6))
           (snd (fst (demo_run (failing_at SceneReset hook_error))))
           (fst (fst (demo_run (failing_at SceneReset hook_error))))).
  - reflexivity.
  - reflexivity.
Defined.



Lemma calls_as_written_witness :
  call_as_written (shot_area 5) "new_file"
    (AsTemplateFields demo_ctx demo_tmpl true) /\
  exists ctx, context (shot_area 5) = Some ctx /\
              (truthy (entity ctx) = true \/ truthy (project ctx) = true).
Proof.
  apply (calls_as_written (option Context) (scripted_host all_fine)
           (fun w => w) same_task demo_url "new_file" (new_file (shot_area 5)) 7
           (Some (shot_context 6)) (snd (fst (demo_run all_fine)))
           (fst (fst (demo_run all_fine))) (snd (demo_run all_fine))
           (AsTemplateFields demo_ctx demo_tmpl true)
           (Returns (PyDict [("Shot", PyStr "sh010")]))).
  - reflexivity.
  - vm_compute. tauto.
Defined.

Lemma raising_call_is_last_call_witness :
  let tr := snd (demo_run (failing_at FolderCreation schema_error)) in
  existsb is_host_call (events_after is_raising_call tr) = false /\
  length (filter is_raising_call tr) <= 1.
Proof.
  cbv zeta.
  apply (raising_call_is_last_call (option Context)
           (scripted_host (failing_at FolderCreation schema_error))
           (fun w => w) same_task demo_url "new_file" (new_file (shot_area 5)) 7
           (Some (shot_context 6))
           (snd (fst (demo_run (failing_at FolderCreation schema_error))))
           (fst (fst (demo_run (failing_at FolderCreation schema_error))))).
  reflexivity.
Defined.

Lemma folder_creation_first_iff_valid_witness :
  let tr := snd (demo_run (failing_at FolderCreation hook_error)) in
  (truthy (can_do_new_file (shot_area 5)) = true <->
   exists o rest,
     tr = EvCall (CreateFoldersIfNeeded demo_ctx demo_tmpl) o :: rest) /\
  (truthy (can_do_new_file (shot_area 5)) = false <-> tr = []).
Proof.
  cbv zeta.
  apply (folder_creation_first_iff_valid (option Context)
           (scripted_host (failing_at FolderCreation hook_error))
           (fun w => w) same_task demo_url "new_file" (new_file (shot_area 5)) 7
           (Some (shot_context 6))
           (snd (fst (demo_run (failing_at FolderCreation hook_error))))
           (fst (fst (demo_run (failing_at FolderCreation hook_error))))).
  reflexivity.
Defined.

Lemma error_box_single_line_witness :
  let box := error_box (new_file (shot_area 5)) 7 hook_error in
  (box_detailedText box = None <-> no_newline "hook failed") /\
  (no_newline "hook failed" ->
   box_text box =
     error_title_of "New File"
     ++ (if String.eqb "hook failed" "" then "" else nl ++ nl ++ "hook failed")).
Proof.
  exact (error_box_single_line (new_file (shot_area 5)) 7 hook_error).
Defined.

Lemma error_box_of_replaced_error_witness :
  let box :=
    error_box (new_file (shot_area 5)) 7
              (TankError (resolve_msg demo_url (exn_str schema_error))) in
  box_text box =
    error_title_of "New File" ++ nl ++ nl
    ++ resolve_msg_head ++ demo_url ++ " if you need help fixing this." /\
  box_detailedText box =
    Some (" " ++ join " " (fst (split NL (exn_str schema_error))
                           :: snd (split NL (exn_str schema_error)))).
Proof.
  apply (error_box_of_replaced_error (new_file (shot_area 5)) 7 demo_url
           schema_error).
  reflexivity.
Defined.

(** ** Concrete runs with failing helpers *)

(** The log entry of the handler raises after the dialog was shown:
    the exception of the log leaves [execute]. *)
Example demo_final_log_fails :
  let run := strict_run (calls_failing_at ScenePreparation hook_error)
                        plain_str failing_final_log fine in
  fst (fst run) = Throws (mkExn ClsException "log failed") /\
  existsb is_exec (snd run) = true.
Proof. split; reflexivity. Qed.

(** [str(e)] raises in the handler: no dialog, and the exception of
    [str] leaves [execute]. *)
Example demo_str_fails :
  let run := strict_run (calls_failing_at SceneReset hook_error)
                        broken_str fine fine in
  fst (fst run) = Throws (mkExn ClsException "bad __str__") /\
  existsb is_exec (snd run) = false.
Proof. split; reflexivity. Qed.

(** The dialog is never dismissed: [execute] does not return. *)
Example demo_dialog_never_dismissed :
  fst (fst (strict_run (calls_failing_at FolderCreation hook_error)
                       plain_str fine never_dismissed)) = Hangs.
Proof. reflexivity. Qed.

Lemma execute_reports_Exception_if_helpers_return_witness :
  let run := strict_run (calls_failing_at ScenePreparation hook_error)
                        plain_str fine fine in
  fst (fst run) = Gives (PyBool false) /\
  exists box, In (OnQt (QExec box) (Gives tt)) (snd run) /\ box_parent box = 7.
Proof.
  cbv zeta.
  apply (execute_reports_Exception_if_helpers_return (option Context)
           (scripted_calls (calls_failing_at ScenePreparation hook_error))
           (fun e w => (plain_str e, w)) (fun o w => (fine o, w))
           (fun o w => (fine o, w)) (fun w => w) same_task demo_url "new_file"
           (new_file (shot_area 5)) 7 (Some (shot_context 6))
           (snd (fst (strict_run (calls_failing_at ScenePreparation hook_error)
                                 plain_str fine fine)))
           _ _ (PrepareNewScene "new_file" demo_ctx) hook_error).
  - reflexivity.
  - vm_compute. tauto.
  - discriminate.
  - reflexivity.
  - reflexivity.
Defined.

Lemma execute_outcome_witness :
  let run := strict_run (calls_failing_at ContextSwitch hook_error)
                        plain_str fine fine in
  (fst (fst run) = Hangs <-> existsb op_hung (snd run) = true) /\
  (forallb call_contained (snd run) = true ->
   forallb helper_returned (snd run) = true ->
   exists b, fst (fst run) = Gives (PyBool b)) /\
  (forall e, fst (fst run) = Throws e ->
     exists ev, In ev (snd run) /\ op_thrown ev = Some e /\
                (is_any_call ev = true ->
                 is_metric_call ev = false /\ isinstance_Exception e = false)).
Proof.
  cbv zeta.
  apply (execute_outcome (option Context)
           (scripted_calls (calls_failing_at ContextSwitch hook_error))
           (fun e w => (plain_str e, w)) (fun o w => (fine o, w))
           (fun o w => (fine o, w)) (fun w => w) same_task demo_url "new_file"
           (new_file (shot_area 5)) 7 (Some (shot_context 6))
           (snd (fst (strict_run (calls_failing_at ContextSwitch hook_error)
                                 plain_str fine fine)))).
  reflexivity.
Defined.

(** In that run the two premises hold and the result is [False]. *)
Example demo_context_change_fails :
  let run := strict_run (calls_failing_at ContextSwitch hook_error)
                        plain_str fine fine in
  forallb call_contained (snd run) = true /\
  forallb helper_returned (snd run) = true /\
  fst (fst run) = Gives (PyBool false).
Proof. repeat split. Qed.

Lemma propagated_exception_is_last_raised_witness :
  let run := strict_run (calls_failing_at SceneReset hook_error)
                        broken_str fine fine in
  let e := mkExn ClsException "bad __str__" in
  exists pre ev,
    snd run = (pre ++ [ev])%list /\ op_thrown ev = Some e /\
    (is_any_call ev = true ->
     is_metric_call ev = false /\ isinstance_Exception e = false /\
     forallb is_any_call (snd run) = true).
Proof.
  cbv zeta.
  apply (propagated_exception_is_last_raised (option Context)
           (scripted_calls (calls_failing_at SceneReset hook_error))
           (fun e w => (broken_str e, w)) (fun o w => (fine o, w))
           (fun o w => (fine o, w)) (fun w => w) same_task demo_url "new_file"
           (new_file (shot_area 5)) 7 (Some (shot_context 6))
           (snd (fst (strict_run (calls_failing_at SceneReset hook_error)
                                 broken_str fine fine)))
           (fst (fst (strict_run (calls_failing_at SceneReset hook_error)
                                 broken_str fine fine)))).
  - reflexivity.
  - reflexivity.
Defined.

Lemma dialog_only_after_Exception_witness :
  let run := strict_run (calls_failing_at ScenePreparation hook_error)
                        plain_str failing_final_log fine in
  length (filter is_exec (snd run)) <= 1 /\
  (existsb is_exec (snd run) = true ->
   existsb threw_Exception (ops_before is_exec (snd run)) = true /\
   fst (fst run) <> Gives (PyBool true) /\
   (forallb helper_returned (snd run) = true ->
    fst (fst run) = Gives (PyBool false))).
Proof.
  cbv zeta.
  apply (dialog_only_after_Exception (option Context)
           (scripted_calls (calls_failing_at ScenePreparation hook_error))
           (fun e w => (plain_str e, w)) (fun o w => (failing_final_log o, w))
           (fun o w => (fine o, w)) (fun w => w) same_task demo_url "new_file"
           (new_file (shot_area 5)) 7 (Some (shot_context 6))
           (snd (fst (strict_run (calls_failing_at ScenePreparation hook_error)
                                 plain_str failing_final_log fine)))).
  reflexivity.
Defined.
